(** * go-postgres: the startup gate of the server binary

    A shallow embedding of [cmd/postgres/main.go] and of the two
    build-tagged implementations of [platform.CheckRoot], together with the
    part of the cobra command runner that [main] relies on.

    Layout: Go values and effects, the operating system seen by the
    program, [platform.CheckRoot], the cobra runner, [main], and then the
    properties. *)

From Stdlib Require Import String Ascii List ZArith Bool Lia.
Import ListNotations.
Set Warnings "-register-all".
Open Scope list_scope.
Open Scope string_scope.

(** ** Go values *)

(** [syscall.Errno]: an error number of the operating system, with the
    text the system gives for it. *)
Record Errno : Type := mkErrno {
  errno_code : Z;
  errno_text : string
}.

(** Go's [error] interface, restricted to the dynamic types this program
    meets: [*errors.errorString] (built by [errors.New], and by
    [fmt.Errorf] when the format has no [%w] verb), [*fmt.wrapError]
    (built by [fmt.Errorf] with one [%w]), the sentinel [pflag.ErrHelp],
    which cobra recognises by identity, and [syscall.Errno].  A nil error
    is [None] in [option error]. *)
Inductive error : Type :=
| errorString (s : string)
| wrapError (msg : string) (err : error)
| flag_ErrHelp
| syscall_Errno (e : Errno).

(** The [Error()] method. *)
Definition Error (e : error) : string :=
  match e with
  | errorString s => s
  | wrapError msg _ => msg
  | flag_ErrHelp => "pflag: help requested"
  | syscall_Errno e => errno_text e
  end.

Definition errors_New (text : string) : error := errorString text.

(** [errors.Is(err, pflag.ErrHelp)]: walks the [Unwrap] chain. *)
Fixpoint errors_Is_ErrHelp (e : error) : bool :=
  match e with
  | flag_ErrHelp => true
  | wrapError _ err => errors_Is_ErrHelp err
  | errorString _ => false
  | syscall_Errno _ => false
  end.

Definition newline : string := String "010"%char EmptyString.
Definition dquote : string := String "034"%char EmptyString.

(** [strings.Contains]. *)
Fixpoint strings_Contains (s substr : string) : bool :=
  String.prefix substr s ||
  match s with
  | EmptyString => false
  | String _ s' => strings_Contains s' substr
  end.

(** ** Effects

    What a call can do besides returning: write to the standard streams,
    call into another package, hold an operating-system handle.  The
    events are kept in program order. *)
Inductive Event : Type :=
| Stdout (s : string)
| Stderr (s : string)
| HelpPrinted (commandPath : string)      (* cobra rendered a help text *)
| UsagePrinted (commandPath : string)     (* cobra rendered a usage text, on stderr *)
| HelpTopic (args : list string)          (* the body of cobra's help command *)
| CompletionScript (shell : string)       (* the body of a completion command *)
| Call_CheckRoot (progname : string)      (* platform.CheckRoot was entered *)
| Call_Run (name : string) (args : list string)
                                          (* cobra entered Run or RunE of a command *)
| Call_PostmasterMain (args : list string)
| TokenOpened
| TokenClosed.

(** How a Go call ends. *)
Inductive Completion (A : Type) : Type :=
| Normal (a : A)          (* returned [a] *)
| Panicked (v : string)   (* a panic with value [v] unwinds the stack *)
| Blocked.                (* never returns *)
Arguments Normal {A} a.
Arguments Panicked {A} v.
Arguments Blocked {A}.

(** A computation: its completion and the events it emitted. *)
Definition M (A : Type) : Type := Completion A * list Event.

Definition ret {A} (a : A) : M A := (Normal a, []).

Definition bind {A B} (m : M A) (k : A -> M B) : M B :=
  match m with
  | (Normal a, t1) => let '(c, t2) := k a in (c, (t1 ++ t2)%list)
  | (Panicked v, t1) => (Panicked v, t1)
  | (Blocked, t1) => (Blocked, t1)
  end.

Definition emit (e : Event) : M unit := (Normal tt, [e]).
Definition panic {A} (v : string) : M A := (Panicked v, []).

(** [defer d] around [body]: [d] runs when [body] returns or panics. *)
Definition defer {A} (d : list Event) (body : M A) : M A :=
  match body with
  | (Blocked, t) => (Blocked, t)
  | (c, t) => (c, (t ++ d)%list)
  end.

Declare Scope go_scope.
Delimit Scope go_scope with go.
Notation "x <- m ;; k" := (bind m (fun x => k))
  (at level 61, m at next level, right associativity) : go_scope.
Notation "m ;; k" := (bind m (fun _ => k))
  (at level 61, right associativity) : go_scope.
Open Scope go_scope.

(** ** The operating system as the program sees it *)

(** POSIX credentials of the process: [os.Getuid()] and [os.Geteuid()]. *)
Record Credentials : Type := mkCredentials {
  Getuid : Z;
  Geteuid : Z
}.

(** Results of the three Windows calls [CheckRoot] makes: the error of
    [windows.OpenProcessToken], the error of
    [windows.CreateWellKnownSid(WinBuiltinAdministratorsSid)], and the
    pair returned by [token.IsMember(adminSid)]. *)
Record TokenApi : Type := mkTokenApi {
  OpenProcessToken : option Errno;
  CreateWellKnownSid : option Errno;
  IsMember : bool * option Errno
}.

(** The build target: [//go:build !windows] or [//go:build windows]. *)
Inductive OS : Type :=
| NotWindows (c : Credentials)
| Windows (w : TokenApi).

(** ** internal/platform *)

Module unix.

Definition root_message : string :=
  dquote ++ "root" ++ dquote ++ " execution of the PostgreSQL server is not permitted." ++ newline ++
  "The server must be started under an unprivileged user ID to prevent" ++ newline ++
  "possible system security compromise.  See the documentation for" ++ newline ++
  "more information on how to properly start the server.".

Definition CheckRoot (c : Credentials) (progname : string) : M (option error) :=
  if (Geteuid c =? 0)%Z then
    ret (Some (errors_New root_message))
  else if negb (Getuid c =? Geteuid c)%Z then
    ret (Some (errors_New (progname ++ ": real and effective user IDs must match")))
  else
    ret None.

End unix.

Module windows.

Definition admin_message : string :=
  "Execution of PostgreSQL by a user with administrative permissions is not" ++ newline ++
  " permitted." ++ newline ++
  " The server must be started under an unprivileged user ID to prevent" ++ newline ++
  " possible system security compromises.  See the documentation for" ++ newline ++
  " more information on how to properly start the server".

(** [fmt.Errorf(prefix + ": %w", err)]. *)
Definition wrap (prefix : string) (err : error) : error :=
  wrapError (prefix ++ ": " ++ Error err) err.

Definition CheckRoot (w : TokenApi) (_ : string) : M (option error) :=
  match OpenProcessToken w with
  | Some err => ret (Some (wrap "failed to check admin privileges" (syscall_Errno err)))
  | None =>
    emit TokenOpened ;;
    defer [TokenClosed]
      (match CreateWellKnownSid w with
       | Some err => ret (Some (wrap "failed to create admin SID" (syscall_Errno err)))
       | None =>
         let '(isAdmin, err) := IsMember w in
         match err with
         | Some err =>
           ret (Some (wrap "failed to check admin membership" (syscall_Errno err)))
         | None =>
           if isAdmin then ret (Some (errors_New admin_message))
           else ret None
         end
       end)
  end.

End windows.

Module platform.

(** The implementation the build tags select. *)
Definition CheckRoot (os : OS) (progname : string) : M (option error) :=
  match os with
  | NotWindows c => unix.CheckRoot c progname
  | Windows w => windows.CheckRoot w progname
  end.

End platform.

(** ** What the program takes from outside

    [filepath.Base] and [strconv.Quote] (the [%q] verb) belong to Go's
    standard library and [findSuggestions] to cobra; their results only
    appear inside messages.  [postmaster.PostmasterMain] is the entry
    point of the server supervisor: it may return an error or nil, panic,
    or never return. *)
Class Externals : Type := {
  filepath_Base : string -> string;
  strconv_Quote : string -> string;
  findSuggestions : string -> string -> string;
  PostmasterMain : list string -> Completion (option error)
}.

(** ** github.com/spf13/cobra

    The command runner, for command lines made of plain words: tokens
    that are not empty, do not start with a dash and are not one of the
    two names of cobra's hidden completion-request command.  Flag parsing
    (pflag), with the generated [--help] and [--version] flags, is outside
    this model: [Execute] answers [None] for such a command line.  The
    process is taken to be started from a command line (on Windows cobra
    first refuses a start from the file explorer). *)
Module cobra.

Inductive PositionalArgs : Type := NoArgs | ArbitraryArgs.

(** A hook or body receives the command being run and the arguments; the
    closures of this program read nothing of the command but its name,
    which is what they are handed here. *)
Inductive Command : Type := mkCommand {
  Use : string;
  Short : string;
  Version : string;
  Hidden : bool;
  Args : option PositionalArgs;
  PersistentPreRunE : option (string -> list string -> M (option error));
  RunE : option (string -> list string -> M (option error));
  Run : option (string -> list string -> M unit);
  commands : list Command
}.

Definition AddCommand (c sub : Command) : Command :=
  mkCommand (Use c) (Short c) (Version c) (Hidden c) (Args c)
            (PersistentPreRunE c) (RunE c) (Run c) (commands c ++ [sub]).

(** [Name()]: [Use] up to its first space. *)
Fixpoint Name_of (use : string) : string :=
  match use with
  | EmptyString => EmptyString
  | String a rest =>
    if Ascii.eqb a " " then EmptyString else String a (Name_of rest)
  end.

Definition Name (c : Command) : string := Name_of (Use c).

Definition HasSubCommands (c : Command) : bool :=
  match commands c with [] => false | _ => true end.

Definition Runnable (c : Command) : bool :=
  match Run c, RunE c with
  | None, None => false
  | _, _ => true
  end.

Definition plain_word (s : string) : bool :=
  match s with
  | EmptyString => false
  | String a _ => negb (Ascii.eqb a "-")
  end
  && negb (s =? "__complete") && negb (s =? "__completeNoDesc").

(** [findNext]: the first subcommand of that name (no aliases, no
    prefix matching, names compared case-sensitively). *)
Definition findNext (c : Command) (next : string) : option Command :=
  find (fun cmd => Name cmd =? next) (commands c).

(** A located command is kept with its ancestors: the command itself
    first, the root last, as the [Parent()] links give them. *)
Definition Located : Type := list Command.

Fixpoint CommandPath (l : Located) : string :=
  match l with
  | [] => ""
  | [c] => Name c
  | c :: parents => CommandPath parents ++ " " ++ Name c
  end.

Fixpoint innerfind (c : Command) (parents : Located) (innerArgs : list string)
  : Located * list string :=
  match innerArgs with
  | [] => (c :: parents, [])
  | nextSubCmd :: rest =>
    match findNext c nextSubCmd with
    | Some cmd => innerfind cmd (c :: parents) rest
    | None => (c :: parents, innerArgs)
    end
  end.

(** The default help command and completion commands cobra adds to a
    root that has subcommands. *)
Definition helpCommand : Command :=
  mkCommand "help [command]" "Help about any command" "" false None
            None None (Some (fun _ args => emit (HelpTopic args))) [].

Definition completionShell (shell : string) : Command :=
  mkCommand shell "" "" false (Some NoArgs)
            None (Some (fun _ _ => emit (CompletionScript shell) ;; ret None)) None [].

Definition completionCmd : Command :=
  mkCommand "completion" "Generate the autocompletion script for the specified shell"
            "" false (Some NoArgs) None None None
            (map completionShell ["bash"; "zsh"; "fish"; "powershell"]).

Definition InitDefaultHelpCmd (c : Command) : Command :=
  if HasSubCommands c then AddCommand c helpCommand else c.

Definition InitDefaultCompletionCmd (c : Command) : Command :=
  if HasSubCommands c then AddCommand c completionCmd else c.

Section Runner.
Context {ext : Externals}.

Definition unknown_command (arg : string) (l : Located) (suggestions : string) : error :=
  errors_New ("unknown command " ++ strconv_Quote arg ++ " for "
              ++ strconv_Quote (CommandPath l) ++ suggestions).

Definition legacyArgsValidation (l : Located) (args : list string) : option error :=
  match l with
  | [] => None
  | c :: parents =>
    if negb (HasSubCommands c) then None
    else
      match parents, args with
      | [], arg :: _ =>
        Some (unknown_command arg l (findSuggestions (CommandPath l) arg))
      | _, _ => None
      end
  end.

Definition Find (c : Command) (args : list string)
  : Located * list string * option error :=
  let '(commandFound, a) := innerfind c [] args in
  match commandFound with
  | found :: _ =>
    match Args found with
    | None => (commandFound, a, legacyArgsValidation commandFound a)
    | Some _ => (commandFound, a, None)
    end
  | [] => (commandFound, a, None)
  end.

Definition ValidateArgs (l : Located) (args : list string) : option error :=
  match l with
  | [] => None
  | c :: _ =>
    match Args c, args with
    | Some NoArgs, arg :: _ => Some (unknown_command arg l "")
    | _, _ => None
    end
  end.

(** The nearest command, from the one being run up to the root, that
    defines a persistent pre-run hook runs it. *)
Fixpoint persistentPreRun (l : Located) (name : string) (args : list string)
  : M (option error) :=
  match l with
  | [] => ret None
  | p :: parents =>
    match PersistentPreRunE p with
    | Some hook => hook name args
    | None => persistentPreRun parents name args
    end
  end.

Definition execute (l : Located) (a : list string) : M (option error) :=
  match l with
  | [] => ret None
  | c :: _ =>
    if negb (Runnable c) then ret (Some flag_ErrHelp)
    else
      match ValidateArgs l a with
      | Some err => ret (Some err)
      | None =>
        err <- persistentPreRun l (Name c) a ;;
        match err with
        | Some err => ret (Some err)
        | None =>
          match RunE c, Run c with
          | Some body, _ => emit (Call_Run (Name c) a) ;; body (Name c) a
          | None, Some body =>
            emit (Call_Run (Name c) a) ;; body (Name c) a ;; ret None
          | None, None => ret None
          end
        end
      end
  end.

Definition ExecuteC (root : Command) (args : list string) : M (option error) :=
  let c := InitDefaultCompletionCmd (InitDefaultHelpCmd root) in
  let '(cmd, flags, err) := Find c args in
  match err with
  | Some err =>
    emit (Stderr ("Error: " ++ Error err ++ newline)) ;;
    emit (Stderr ("Run '" ++ CommandPath cmd ++ " --help' for usage." ++ newline)) ;;
    ret (Some err)
  | None =>
    err <- execute cmd flags ;;
    match err with
    | None => ret None
    | Some err =>
      if errors_Is_ErrHelp err then
        emit (HelpPrinted (CommandPath cmd)) ;; ret None
      else
        emit (Stderr ("Error: " ++ Error err ++ newline)) ;;
        emit (UsagePrinted (CommandPath cmd)) ;;
        ret (Some err)
    end
  end.

Definition Execute (root : Command) (args : list string) : option (M (option error)) :=
  if forallb plain_word args then Some (ExecuteC root args) else None.

End Runner.

End cobra.

(** ** cmd/postgres *)

(** How the process ends.  An unrecovered panic makes the Go runtime print
    the panic value with a goroutine trace and leave with status 2. *)
Inductive ProcessEnd : Type :=
| Exited (code : Z)
| Crashed (v : string)
| Supervising.

Definition exit_status (p : ProcessEnd) : option Z :=
  match p with
  | Exited code => Some code
  | Crashed _ => Some 2%Z
  | Supervising => None
  end.

Section Main.
Context {ext : Externals}.
Variable os : OS.

Definition checkCmd : cobra.Command :=
  cobra.mkCommand "check" "" "" true None None None
    (Some (fun _ _ => panic "DISPATCH_CHECK: Not implemented yet")) [].

Definition bootCmd : cobra.Command :=
  cobra.mkCommand "boot" "" "" true None None None
    (Some (fun _ _ => panic "DISPATCH_BOOT: Not implemented yet")) [].

Definition describeConfigCmd : cobra.Command :=
  cobra.mkCommand "describe-config" "Describe configuration parameters" "" false None
    None None
    (Some (fun _ _ =>
             emit (Stdout ("GucInfoMain: Listing all configuration parameters..." ++ newline))))
    [].

Definition singleCmd : cobra.Command :=
  cobra.mkCommand "single" "Single user mode" "" false None None None
    (Some (fun _ _ => panic "DISPATCH_SINGLE: Not implemented yet")) [].

Definition rootCmd (progname : string) : cobra.Command :=
  let rootCmd :=
    cobra.mkCommand "postgres" "PostgreSQL server" "0.0.1 (My-Postgres-Go)" false None
      (Some (fun cmd_Name _ =>
               if (cmd_Name =? "describe-config") || (cmd_Name =? "help") then ret None
               else
                 err <- (emit (Call_CheckRoot progname) ;;
                         platform.CheckRoot os progname) ;;
                 match err with
                 | Some err => ret (Some err)
                 | None => ret None
                 end))
      (Some (fun _ args =>
               emit (Call_PostmasterMain args) ;; (PostmasterMain args, [])))
      None [] in
  let rootCmd := cobra.AddCommand rootCmd checkCmd in
  let rootCmd := cobra.AddCommand rootCmd bootCmd in
  let rootCmd := cobra.AddCommand rootCmd describeConfigCmd in
  let rootCmd := cobra.AddCommand rootCmd singleCmd in
  rootCmd.

(** [main], on the argument vector [os.Args]; [None] when the command
    line is outside the words the runner models. *)
Definition main (os_Args : list string) : option (ProcessEnd * list Event) :=
  match os_Args with
  | [] => Some (Crashed "runtime error: index out of range [0] with length 0", [])
  | argv0 :: args =>
    let progname := filepath_Base argv0 in
    match cobra.Execute (rootCmd progname) args with
    | None => None
    | Some (Normal (Some _), t) => Some (Exited 1, t)
    | Some (Normal None, t) => Some (Exited 0, t)
    | Some (Panicked v, t) => Some (Crashed v, t)
    | Some (Blocked, t) => Some (Supervising, t)
    end
  end.

End Main.

(** ** Reading a run *)

(** The argument lists [PostmasterMain] was called with, in order. *)
Fixpoint postmaster_calls (t : list Event) : list (list string) :=
  match t with
  | [] => []
  | Call_PostmasterMain args :: t' => args :: postmaster_calls t'
  | _ :: t' => postmaster_calls t'
  end.

(** The commands whose body cobra entered, in order. *)
Fixpoint run_calls (t : list Event) : list string :=
  match t with
  | [] => []
  | Call_Run name _ :: t' => name :: run_calls t'
  | _ :: t' => run_calls t'
  end.

(** How many times the privilege verifier was entered. *)
Fixpoint checkroot_calls (t : list Event) : nat :=
  match t with
  | [] => 0
  | Call_CheckRoot _ :: t' => S (checkroot_calls t')
  | _ :: t' => checkroot_calls t'
  end.

(** Token handles still open after the events [t], starting from [n]. *)
Fixpoint open_tokens (n : nat) (t : list Event) : nat :=
  match t with
  | [] => n
  | TokenOpened :: t' => open_tokens (S n) t'
  | TokenClosed :: t' => open_tokens (pred n) t'
  | _ :: t' => open_tokens n t'
  end.

(** The identities the verifier is there to refuse: effective user id 0,
    or a token that the membership test reports as a member of the
    built-in administrators group. *)
Definition superuser (os : OS) : Prop :=
  match os with
  | NotWindows c => Geteuid c = 0%Z
  | Windows w =>
    OpenProcessToken w = None /\ CreateWellKnownSid w = None /\ IsMember w = (true, None)
  end.

Definition superuser_message (os : OS) : string :=
  match os with
  | NotWindows _ => unix.root_message
  | Windows _ => windows.admin_message
  end.

(** The panic value of a reserved mode. *)
Definition not_implemented (mode : string) : string :=
  if mode =? "check" then "DISPATCH_CHECK: Not implemented yet"
  else if mode =? "boot" then "DISPATCH_BOOT: Not implemented yet"
  else "DISPATCH_SINGLE: Not implemented yet".

(** The names cobra matches the first word of the command line against:
    the four commands [main] registers, then the two cobra adds. *)
Definition registry : list string :=
  ["check"; "boot"; "describe-config"; "single"; "help"; "completion"].

(** The condition under which the hook of [rootCmd] skips the verifier. *)
Definition exempt (cmd_Name : string) : bool :=
  (cmd_Name =? "describe-config") || (cmd_Name =? "help").

(** The command tree [Execute] works on: [rootCmd] with cobra's help and
    completion commands added. *)
Definition tree {ext : Externals} (os : OS) (progname : string) : cobra.Command :=
  cobra.InitDefaultCompletionCmd (cobra.InitDefaultHelpCmd (rootCmd os progname)).

(** The persistent pre-run hook of [rootCmd]. *)
Definition gate (os : OS) (progname : string) (cmd_Name : string) (args : list string)
  : M (option error) :=
  if exempt cmd_Name then ret None
  else
    err <- (emit (Call_CheckRoot progname) ;; platform.CheckRoot os progname) ;;
    match err with
    | Some err => ret (Some err)
    | None => ret None
    end.

(** [tree] with the calls that build it carried out: the record cobra
    ends up with. *)
Definition tree_built {ext : Externals} (os : OS) (progname : string) : cobra.Command :=
  cobra.mkCommand "postgres" "PostgreSQL server" "0.0.1 (My-Postgres-Go)" false None
    (Some (gate os progname))
    (Some (fun _ args => emit (Call_PostmasterMain args) ;; (PostmasterMain args, [])))
    None
    [checkCmd; bootCmd; describeConfigCmd; singleCmd;
     cobra.helpCommand; cobra.completionCmd].

(** A sample environment for concrete runs: the program is started by a
    bare name, which [filepath.Base] returns unchanged; words without
    special characters, which [%q] only surrounds with quotes; no
    suggestion; a supervisor that keeps running. *)
Definition sample_externals : Externals := {|
  filepath_Base := fun path => path;
  strconv_Quote := fun s => dquote ++ s ++ dquote;
  findSuggestions := fun _ _ => "";
  PostmasterMain := fun _ => Blocked
|}.

Definition sample_user : OS := NotWindows (mkCredentials 1000 1000).
Definition sample_root : OS := NotWindows (mkCredentials 0 0).

(** A Windows process whose membership test fails with "access denied". *)
Definition sample_access_denied : Errno := mkErrno 5 "Access is denied.".
Definition sample_untestable_token : TokenApi :=
  mkTokenApi None None (false, Some sample_access_denied).

(** A Windows process of an ordinary user: every call succeeds and the
    token is not a member of the administrators group. *)
Definition sample_plain_token : TokenApi := mkTokenApi None None (false, None).

(** The sample environment with a supervisor that fails at once. *)
Definition sample_failing_externals : Externals := {|
  filepath_Base := fun path => path;
  strconv_Quote := fun s => dquote ++ s ++ dquote;
  findSuggestions := fun _ _ => "";
  PostmasterMain := fun _ => Normal (Some (errors_New "postmaster: not started"))
|}.

(** * Properties *)

(** ** The privilege verifier *)

Lemma prefix_app : forall p s : string, String.prefix p (p ++ s) = true.
Proof.
  induction p as [|a p IH]; intros s; simpl.
  - destruct s; reflexivity.
  - destruct (Ascii.ascii_dec a a) as [_|n]; [apply IH | now destruct n].
Qed.

Lemma strings_Contains_prefix : forall p s : string, strings_Contains (p ++ s) p = true.
Proof.
  intros p s. pose proof (prefix_app p s) as E.
  destruct (p ++ s); cbn [strings_Contains]; rewrite E; reflexivity.
Qed.

(** The verifier always returns: it neither panics nor blocks. *)
Lemma CheckRoot_returns : forall os progname,
  exists r t, platform.CheckRoot os progname = (Normal r, t).
Proof.
  intros [c|w] progname; simpl.
  - unfold unix.CheckRoot.
    destruct (Geteuid c =? 0)%Z; [|destruct (negb _)];
      do 2 eexists; reflexivity.
  - unfold windows.CheckRoot.
    destruct (OpenProcessToken w); [do 2 eexists; reflexivity|].
    destruct (CreateWellKnownSid w); [do 2 eexists; reflexivity|].
    destruct (IsMember w) as [[|] [e|]]; do 2 eexists; reflexivity.
Qed.

(** Its events are token events only, and every handle it opens it closes. *)
Lemma CheckRoot_events : forall os progname c t,
  platform.CheckRoot os progname = (c, t) ->
  (t = [] \/ t = [TokenOpened; TokenClosed]).
Proof.
  intros [cr|w] progname c t; simpl.
  - unfold unix.CheckRoot.
    destruct (Geteuid cr =? 0)%Z; [|destruct (negb _)];
      inversion 1; auto.
  - unfold windows.CheckRoot.
    destruct (OpenProcessToken w); [inversion 1; auto|].
    destruct (CreateWellKnownSid w); [inversion 1; auto|].
    destruct (IsMember w) as [[|] [e|]]; inversion 1; auto.
Qed.

(** No error of the verifier is, or wraps, the help sentinel. *)
Lemma CheckRoot_not_ErrHelp : forall os progname err t,
  platform.CheckRoot os progname = (Normal (Some err), t) ->
  errors_Is_ErrHelp err = false.
Proof.
  intros [cr|w] progname err t; simpl.
  - unfold unix.CheckRoot.
    destruct (Geteuid cr =? 0)%Z; [|destruct (negb _)];
      inversion 1; reflexivity.
  - unfold windows.CheckRoot.
    destruct (OpenProcessToken w); [inversion 1; reflexivity|].
    destruct (CreateWellKnownSid w); [inversion 1; reflexivity|].
    destruct (IsMember w) as [[|] [e|]]; inversion 1; reflexivity.
Qed.

Lemma CheckRoot_superuser : forall os progname,
  superuser os ->
  exists t, platform.CheckRoot os progname
            = (Normal (Some (errors_New (superuser_message os))), t).
Proof.
  intros [c|w] progname; simpl.
  - intros E. unfold unix.CheckRoot. rewrite E. eexists; reflexivity.
  - intros (E1 & E2 & E3). unfold windows.CheckRoot.
    rewrite E1, E2, E3. eexists; reflexivity.
Qed.

(** C1.  With effective user id 0 the POSIX verifier returns the error
    holding the fixed root message, whatever the real user id and the
    program name (the empty name included); with a token that is a member
    of the administrators group the Windows verifier returns the error
    holding the fixed administrator message, whatever the program name,
    and has closed the token.  Both messages span several lines. *)
Theorem C1_superuser_is_refused :
  (forall (c : Credentials) (progname : string),
      Geteuid c = 0%Z ->
      unix.CheckRoot c progname = (Normal (Some (errors_New unix.root_message)), [])
      /\ unix.CheckRoot c progname
         = unix.CheckRoot (mkCredentials 0 0) "")
  /\ (forall (w : TokenApi) (progname : string),
      OpenProcessToken w = None ->
      CreateWellKnownSid w = None ->
      IsMember w = (true, None) ->
      windows.CheckRoot w progname
      = (Normal (Some (errors_New windows.admin_message)), [TokenOpened; TokenClosed])
      /\ windows.CheckRoot w progname = windows.CheckRoot w "")
  /\ strings_Contains unix.root_message newline = true
  /\ strings_Contains windows.admin_message newline = true.
Proof.
  split; [|split; [|split; reflexivity]].
  - intros c progname E. unfold unix.CheckRoot. rewrite E. split; reflexivity.
  - intros w progname E1 E2 E3. unfold windows.CheckRoot.
    rewrite E1, E2, E3. split; reflexivity.
Qed.

Lemma C1_superuser_is_refused_witness :
  unix.CheckRoot (mkCredentials 1000 0) ""
  = (Normal (Some (errors_New unix.root_message)), [])
  /\ windows.CheckRoot (mkTokenApi None None (true, None)) ""
     = (Normal (Some (errors_New windows.admin_message)), [TokenOpened; TokenClosed]).
Proof.
  split.
  - apply (proj1 C1_superuser_is_refused (mkCredentials 1000 0) ""). reflexivity.
  - apply (proj1 (proj2 C1_superuser_is_refused)
                 (mkTokenApi None None (true, None)) ""); reflexivity.
Defined.

(** C5.  When the real and the effective user id differ and the effective
    one is not 0, the POSIX verifier returns the identity-mismatch error,
    and the program name occurs in its message. *)
Theorem C5_identity_mismatch : forall (c : Credentials) (progname : string),
  Getuid c <> Geteuid c ->
  Geteuid c <> 0%Z ->
  unix.CheckRoot c progname
  = (Normal (Some (errors_New (progname ++ ": real and effective user IDs must match"))), [])
  /\ strings_Contains
       (Error (errors_New (progname ++ ": real and effective user IDs must match")))
       progname = true.
Proof.
  intros c progname Hne H0. split.
  - unfold unix.CheckRoot.
    destruct (Z.eqb_spec (Geteuid c) 0) as [E|_]; [contradiction|].
    destruct (Z.eqb_spec (Getuid c) (Geteuid c)) as [E|_]; [contradiction|].
    reflexivity.
  - simpl. apply strings_Contains_prefix.
Qed.

Lemma C5_identity_mismatch_witness :
  unix.CheckRoot (mkCredentials 1000 1001) "postgres"
  = (Normal (Some (errors_New "postgres: real and effective user IDs must match")), [])
  /\ strings_Contains "postgres: real and effective user IDs must match" "postgres" = true.
Proof.
  apply (C5_identity_mismatch (mkCredentials 1000 1001) "postgres"); simpl; lia.
Defined.

(** C6.  When the real and the effective user id are equal and not 0, the
    POSIX verifier returns nil, for every program name. *)
Theorem C6_matching_unprivileged_ids_pass : forall (c : Credentials) (progname : string),
  Getuid c = Geteuid c ->
  Geteuid c <> 0%Z ->
  unix.CheckRoot c progname = (Normal None, []).
Proof.
  intros c progname He H0. unfold unix.CheckRoot.
  destruct (Z.eqb_spec (Geteuid c) 0) as [E|_]; [contradiction|].
  rewrite He, Z.eqb_refl. reflexivity.
Qed.

Lemma C6_matching_unprivileged_ids_pass_witness :
  unix.CheckRoot (mkCredentials 1000 1000) "postgres" = (Normal None, []).
Proof.
  apply (C6_matching_unprivileged_ids_pass (mkCredentials 1000 1000) "postgres");
    simpl; [reflexivity | lia].
Defined.

(** ** The dispatcher *)

Section Dispatch.
Context {ext : Externals}.
Variable os : OS.
Variable progname : string.

Lemma tree_eq : tree os progname = tree_built os progname.
Proof. reflexivity. Qed.

Lemma InitDefault_built :
  cobra.InitDefaultCompletionCmd (cobra.InitDefaultHelpCmd (rootCmd os progname))
  = tree_built os progname.
Proof. reflexivity. Qed.

Lemma ExecuteC_eq : forall args,
  cobra.ExecuteC (rootCmd os progname) args
  = (let '(cmd, flags, err) := cobra.Find (tree_built os progname) args in
     match err with
     | Some err =>
       emit (Stderr ("Error: " ++ Error err ++ newline)) ;;
       emit (Stderr ("Run '" ++ cobra.CommandPath cmd ++ " --help' for usage." ++ newline)) ;;
       ret (Some err)
     | None =>
       err <- cobra.execute cmd flags ;;
       match err with
       | None => ret None
       | Some err =>
         if errors_Is_ErrHelp err then
           emit (HelpPrinted (cobra.CommandPath cmd)) ;; ret None
         else
           emit (Stderr ("Error: " ++ Error err ++ newline)) ;;
           emit (UsagePrinted (cobra.CommandPath cmd)) ;;
           ret (Some err)
       end
     end).
Proof.
  intros args. unfold cobra.ExecuteC. rewrite InitDefault_built. reflexivity.
Qed.

Lemma Find_root :
  cobra.Find (tree_built os progname) [] = ([tree_built os progname], [], None).
Proof. reflexivity. Qed.

Lemma registry_names :
  map cobra.Name (cobra.commands (tree os progname)) = registry.
Proof. reflexivity. Qed.

Lemma tree_hook : cobra.PersistentPreRunE (tree os progname) = Some (gate os progname).
Proof. reflexivity. Qed.

Lemma findNext_tree : forall x,
  cobra.findNext (tree_built os progname) x =
  if "check" =? x then Some checkCmd
  else if "boot" =? x then Some bootCmd
  else if "describe-config" =? x then Some describeConfigCmd
  else if "single" =? x then Some singleCmd
  else if "help" =? x then Some cobra.helpCommand
  else if "completion" =? x then Some cobra.completionCmd
  else None.
Proof. reflexivity. Qed.

Lemma findNext_completion : forall y,
  cobra.findNext cobra.completionCmd y =
  if "bash" =? y then Some (cobra.completionShell "bash")
  else if "zsh" =? y then Some (cobra.completionShell "zsh")
  else if "fish" =? y then Some (cobra.completionShell "fish")
  else if "powershell" =? y then Some (cobra.completionShell "powershell")
  else None.
Proof. reflexivity. Qed.

Lemma innerfind_leaf : forall c parents args,
  cobra.commands c = [] ->
  cobra.innerfind c parents args = (c :: parents, args).
Proof.
  intros c parents [|x rest] E; [reflexivity|].
  simpl. unfold cobra.findNext. rewrite E. reflexivity.
Qed.


(** A registered command without subcommands takes every word after
    its name as an argument. *)
Lemma Find_leaf : forall x sub rest,
  cobra.findNext (tree_built os progname) x = Some sub ->
  cobra.commands sub = [] ->
  cobra.Find (tree_built os progname) (x :: rest) = ([sub; (tree_built os progname)], rest, None).
Proof.
  intros x sub rest Hx Hc. unfold cobra.Find. cbn [cobra.innerfind].
  rewrite Hx, innerfind_leaf by exact Hc.
  destruct (cobra.Args sub); [reflexivity|].
  unfold cobra.legacyArgsValidation, cobra.HasSubCommands. rewrite Hc. reflexivity.
Qed.

(** Whatever command the words select, the hook that runs before its
    body is the one of [rootCmd]. *)
Lemma Find_gate : forall args l rest err,
  cobra.Find (tree_built os progname) args = (l, rest, err) ->
  forall name a, cobra.persistentPreRun l name a = (gate os progname) name a.
Proof.
  intros args l rest err. unfold cobra.Find.
  destruct args as [|x args].
  - simpl. inversion 1; subst. reflexivity.
  - cbn [cobra.innerfind]. rewrite findNext_tree.
    repeat match goal with
           | |- context [if ?n =? x then _ else _] =>
             destruct (n =? x);
               [ rewrite innerfind_leaf by reflexivity; cbn;
                 inversion 1; subst; reflexivity | ]
           end.
    destruct ("completion" =? x).
    + destruct args as [|y args].
      * cbn. inversion 1; subst. reflexivity.
      * cbn [cobra.innerfind]. rewrite findNext_completion.
        repeat match goal with
               | |- context [if ?n =? y then _ else _] =>
                 destruct (n =? y);
                   [ rewrite innerfind_leaf by reflexivity; cbn;
                     inversion 1; subst; reflexivity | ]
               end.
        cbn. inversion 1; subst. reflexivity.
    + cbn. inversion 1; subst. reflexivity.
Qed.

(** The hard stop: when the words select a runnable, non-exempt command
    with acceptable arguments and the verifier returns an error,
    [Execute] prints that error and the usage text and returns the
    error; no body is entered. *)
Lemma ExecuteC_rejected : forall args cmd parents rest err t,
  cobra.Find (tree_built os progname) args = (cmd :: parents, rest, None) ->
  cobra.Runnable cmd = true ->
  cobra.ValidateArgs (cmd :: parents) rest = None ->
  exempt (cobra.Name cmd) = false ->
  platform.CheckRoot os progname = (Normal (Some err), t) ->
  cobra.ExecuteC (rootCmd os progname) args
  = (Normal (Some err),
     [Call_CheckRoot progname] ++ t
     ++ [Stderr ("Error: " ++ Error err ++ newline);
         UsagePrinted (cobra.CommandPath (cmd :: parents))])%list.
Proof.
  intros args cmd parents rest err t HF HR HV HE HC.
  rewrite ExecuteC_eq.
  rewrite HF. unfold cobra.execute. rewrite HR, HV. cbn [negb].
  rewrite (Find_gate _ _ _ _ HF). unfold gate. rewrite HE, HC.
  cbn. rewrite (CheckRoot_not_ErrHelp _ _ _ _ HC). cbn.
  rewrite !app_nil_r. reflexivity.
Qed.

(** The pass: under the same selection, when the verifier returns nil,
    [Execute] enters the body of the command. *)
Lemma execute_after_pass : forall args cmd parents rest t,
  cobra.Find (tree_built os progname) args = (cmd :: parents, rest, None) ->
  cobra.Runnable cmd = true ->
  cobra.ValidateArgs (cmd :: parents) rest = None ->
  exempt (cobra.Name cmd) = false ->
  platform.CheckRoot os progname = (Normal None, t) ->
  cobra.execute (cmd :: parents) rest
  = bind (Normal tt, [Call_CheckRoot progname] ++ t)%list
         (fun _ =>
            match cobra.RunE cmd, cobra.Run cmd with
            | Some body, _ =>
              emit (Call_Run (cobra.Name cmd) rest) ;; body (cobra.Name cmd) rest
            | None, Some body =>
              emit (Call_Run (cobra.Name cmd) rest) ;; body (cobra.Name cmd) rest ;; ret None
            | None, None => ret None
            end).
Proof.
  intros args cmd parents rest t HF HR HV HE HC.
  unfold cobra.execute. rewrite HR, HV. cbn [negb].
  rewrite (Find_gate _ _ _ _ HF). unfold gate. rewrite HE, HC.
  cbn. rewrite app_nil_r. reflexivity.
Qed.

End Dispatch.

Lemma tokens_only_no_calls : forall t,
  t = [] \/ t = [TokenOpened; TokenClosed] ->
  run_calls t = [] /\ postmaster_calls t = [] /\ checkroot_calls t = 0
  /\ open_tokens 0 t = 0.
Proof. intros t [-> | ->]; repeat split. Qed.

(** C2.  When the words select a runnable command that the hook does not
    exempt (its name is neither describe-config nor help) and the verifier
    returns an error, the process prints that error's message on stderr
    and leaves with status 1, and no body was entered; in particular boot,
    check and single under a superuser identity end with the privilege
    error and not with their panic. *)
Theorem C2_privilege_check_precedes_mode {ext : Externals} :
  (forall os argv0 args cmd parents rest err t,
      forallb cobra.plain_word args = true ->
      cobra.Find (tree os (filepath_Base argv0)) args = (cmd :: parents, rest, None) ->
      cobra.Runnable cmd = true ->
      cobra.ValidateArgs (cmd :: parents) rest = None ->
      exempt (cobra.Name cmd) = false ->
      platform.CheckRoot os (filepath_Base argv0) = (Normal (Some err), t) ->
      exists trace,
        main os (argv0 :: args) = Some (Exited 1, trace)
        /\ trace = ([Call_CheckRoot (filepath_Base argv0)] ++ t
                    ++ [Stderr ("Error: " ++ Error err ++ newline);
                        UsagePrinted (cobra.CommandPath (cmd :: parents))])%list
        /\ run_calls trace = [] /\ postmaster_calls trace = [])
  /\ (forall os argv0 mode rest,
      In mode ["boot"; "check"; "single"] ->
      forallb cobra.plain_word rest = true ->
      superuser os ->
      exists t,
        main os (argv0 :: mode :: rest)
        = Some (Exited 1,
                [Call_CheckRoot (filepath_Base argv0)] ++ t
                ++ [Stderr ("Error: " ++ superuser_message os ++ newline);
                    UsagePrinted ("postgres " ++ mode)])%list
        /\ run_calls t = []).
Proof.
  assert (G : forall os argv0 args cmd parents rest err t,
      forallb cobra.plain_word args = true ->
      cobra.Find (tree_built os (filepath_Base argv0)) args = (cmd :: parents, rest, None) ->
      cobra.Runnable cmd = true ->
      cobra.ValidateArgs (cmd :: parents) rest = None ->
      exempt (cobra.Name cmd) = false ->
      platform.CheckRoot os (filepath_Base argv0) = (Normal (Some err), t) ->
      main os (argv0 :: args)
      = Some (Exited 1,
              [Call_CheckRoot (filepath_Base argv0)] ++ t
              ++ [Stderr ("Error: " ++ Error err ++ newline);
                  UsagePrinted (cobra.CommandPath (cmd :: parents))])%list).
  { intros os argv0 args cmd parents rest err t HP HF HR HV HE HC.
    unfold main, cobra.Execute. rewrite HP.
    rewrite (ExecuteC_rejected os _ args cmd parents rest err t HF HR HV HE HC).
    reflexivity. }
  split.
  - intros os argv0 args cmd parents rest err t HP HF HR HV HE HC.
    eexists. split; [apply (G os argv0 args cmd parents rest err t); assumption|].
    split; [reflexivity|].
    destruct (tokens_only_no_calls t (CheckRoot_events _ _ _ _ HC)) as (R & P & _).
    destruct (CheckRoot_events _ _ _ _ HC) as [-> | ->]; split; reflexivity.
  - intros os argv0 mode rest Hm HP Hs.
    destruct (CheckRoot_superuser os (filepath_Base argv0) Hs) as (t & HC).
    exists t. split.
    + assert (HP' : forallb cobra.plain_word (mode :: rest) = true).
      { cbn [forallb]. rewrite HP.
        simpl in Hm. destruct Hm as [<-|[<-|[<-|[]]]]; reflexivity. }
      simpl in Hm. destruct Hm as [<-|[<-|[<-|[]]]].
      * apply (G os argv0 _ bootCmd [tree_built os (filepath_Base argv0)] rest
                 (errors_New (superuser_message os)) t HP');
          try reflexivity; try assumption.
        apply Find_leaf; reflexivity.
      * apply (G os argv0 _ checkCmd [tree_built os (filepath_Base argv0)] rest
                 (errors_New (superuser_message os)) t HP');
          try reflexivity; try assumption.
        apply Find_leaf; reflexivity.
      * apply (G os argv0 _ singleCmd [tree_built os (filepath_Base argv0)] rest
                 (errors_New (superuser_message os)) t HP');
          try reflexivity; try assumption.
        apply Find_leaf; reflexivity.
    + destruct (tokens_only_no_calls t (CheckRoot_events _ _ _ _ HC)) as (R & _).
      exact R.
Qed.

Lemma C2_privilege_check_precedes_mode_witness :
  exists trace,
    @main sample_externals sample_root ["postgres"; "boot"] = Some (Exited 1, trace)
    /\ trace = [Call_CheckRoot "postgres";
                Stderr ("Error: " ++ unix.root_message ++ newline);
                UsagePrinted "postgres boot"]
    /\ run_calls trace = [] /\ postmaster_calls trace = [].
Proof.
  apply (proj1 (@C2_privilege_check_precedes_mode sample_externals)
               sample_root "postgres" ["boot"] bootCmd
               [@tree_built sample_externals sample_root "postgres"] []
               (errors_New unix.root_message) []); reflexivity.
Defined.

(** C3, as the specification words it: a reserved mode under an
    unprivileged identity ends in a failure the dispatcher reports with a
    non-zero exit code, one that can be told from a crash.  The code
    panics instead: on boot, run by an ordinary user, the process does not
    leave through an exit code of the dispatcher at all, it crashes. *)
Lemma C3_reserved_mode_counterexample :
  @main sample_externals sample_user ["postgres"; "boot"]
  = Some (Crashed "DISPATCH_BOOT: Not implemented yet",
          [Call_CheckRoot "postgres"; Call_Run "boot" []])
  /\ ~ (exists code trace,
          @main sample_externals sample_user ["postgres"; "boot"]
          = Some (Exited code, trace) /\ code <> 0%Z).
Proof.
  split; [reflexivity|].
  intros (code & trace & H & _). discriminate H.
Qed.

(** C3, amended.  Under an identity the verifier accepts, boot, check and
    single enter their body, which panics with the value
    "DISPATCH_<MODE>: Not implemented yet": the process crashes with that
    value, which the Go runtime turns into exit status 2.  The body was
    entered once, after the verifier, and nothing was printed by the
    dispatcher. *)
Theorem C3_reserved_mode_panics {ext : Externals} :
  forall os argv0 mode rest t,
    In mode ["boot"; "check"; "single"] ->
    forallb cobra.plain_word rest = true ->
    platform.CheckRoot os (filepath_Base argv0) = (Normal None, t) ->
    main os (argv0 :: mode :: rest)
    = Some (Crashed (not_implemented mode),
            [Call_CheckRoot (filepath_Base argv0)] ++ t ++ [Call_Run mode rest])%list
    /\ exit_status (Crashed (not_implemented mode)) = Some 2%Z
    /\ strings_Contains (not_implemented mode) "Not implemented" = true.
Proof.
  intros os argv0 mode rest t Hm HP HC.
  assert (HP' : forallb cobra.plain_word (mode :: rest) = true).
  { cbn [forallb]. rewrite HP.
    simpl in Hm. destruct Hm as [<-|[<-|[<-|[]]]]; reflexivity. }
  assert (Hrun : forall cmd v,
            cobra.Find (tree_built os (filepath_Base argv0)) (mode :: rest)
            = ([cmd; tree_built os (filepath_Base argv0)], rest, None) ->
            cobra.Runnable cmd = true ->
            cobra.Args cmd = None ->
            exempt (cobra.Name cmd) = false ->
            cobra.RunE cmd = None ->
            cobra.Run cmd = Some (fun _ _ => panic v) ->
            main os (argv0 :: mode :: rest)
            = Some (Crashed v,
                    [Call_CheckRoot (filepath_Base argv0)] ++ t
                    ++ [Call_Run (cobra.Name cmd) rest])%list).
  { intros cmd v HF HR HA HE HRE HRun.
    unfold main, cobra.Execute. rewrite HP'.
    rewrite ExecuteC_eq.
    rewrite HF.
    rewrite (execute_after_pass os _ (mode :: rest) cmd _ rest t HF HR); trivial.
    - rewrite HRE, HRun. reflexivity.
    - unfold cobra.ValidateArgs. rewrite HA. reflexivity. }
  simpl in Hm. destruct Hm as [<-|[<-|[<-|[]]]];
    (split; [|split; reflexivity]).
  - apply (Hrun bootCmd); try reflexivity. apply Find_leaf; reflexivity.
  - apply (Hrun checkCmd); try reflexivity. apply Find_leaf; reflexivity.
  - apply (Hrun singleCmd); try reflexivity. apply Find_leaf; reflexivity.
Qed.

Lemma C3_reserved_mode_panics_witness :
  @main sample_externals sample_user ["postgres"; "single"; "template1"]
  = Some (Crashed "DISPATCH_SINGLE: Not implemented yet",
          [Call_CheckRoot "postgres"; Call_Run "single" ["template1"]])
  /\ exit_status (Crashed "DISPATCH_SINGLE: Not implemented yet") = Some 2%Z
  /\ strings_Contains "DISPATCH_SINGLE: Not implemented yet" "Not implemented" = true.
Proof.
  apply (@C3_reserved_mode_panics sample_externals sample_user "postgres" "single"
           ["template1"] []).
  - simpl. tauto.
  - reflexivity.
  - reflexivity.
Defined.

(** C4.  describe-config runs under every identity, superuser and
    administrator included: the verifier is not entered, the body prints
    the configuration line on stdout, and the process leaves with
    status 0. *)
Theorem C4_describe_config_is_exempt {ext : Externals} :
  forall os argv0 rest,
    forallb cobra.plain_word rest = true ->
    exists trace,
      main os (argv0 :: "describe-config" :: rest) = Some (Exited 0, trace)
      /\ trace = [Call_Run "describe-config" rest;
                  Stdout ("GucInfoMain: Listing all configuration parameters..." ++ newline)]
      /\ checkroot_calls trace = 0.
Proof.
  intros os argv0 rest HP. eexists. split; [|split; reflexivity].
  unfold main, cobra.Execute. cbn [forallb]. rewrite HP.
  change (cobra.plain_word "describe-config") with true. cbn [andb].
  rewrite ExecuteC_eq.
  rewrite (Find_leaf os _ "describe-config" describeConfigCmd rest) by reflexivity.
  reflexivity.
Qed.

Lemma C4_describe_config_is_exempt_witness :
  exists trace,
    @main sample_externals sample_root ["postgres"; "describe-config"] = Some (Exited 0, trace)
    /\ trace = [Call_Run "describe-config" [];
                Stdout ("GucInfoMain: Listing all configuration parameters..." ++ newline)]
    /\ checkroot_calls trace = 0.
Proof.
  apply (@C4_describe_config_is_exempt sample_externals sample_root "postgres" []).
  reflexivity.
Defined.

(** C7.  On Windows, when opening the process token, building the
    administrators SID or the membership test fails, the verifier returns
    the error of that step, wrapping the cause; it never returns nil, and
    the token, once opened, has been closed.  The dispatcher treats this
    error like the administrator refusal: the default mode leaves with
    status 1 and [PostmasterMain] is not called. *)
Theorem C7_windows_fails_closed {ext : Externals} :
  forall (w : TokenApi) (progname : string) (cause : Errno),
    (OpenProcessToken w = Some cause ->
     windows.CheckRoot w progname
     = (Normal (Some (wrapError ("failed to check admin privileges: " ++ errno_text cause)
                                (syscall_Errno cause))), []))
    /\ (OpenProcessToken w = None ->
        CreateWellKnownSid w = Some cause ->
        windows.CheckRoot w progname
        = (Normal (Some (wrapError ("failed to create admin SID: " ++ errno_text cause)
                                   (syscall_Errno cause))),
           [TokenOpened; TokenClosed]))
    /\ (OpenProcessToken w = None ->
        CreateWellKnownSid w = None ->
        snd (IsMember w) = Some cause ->
        windows.CheckRoot w progname
        = (Normal (Some (wrapError ("failed to check admin membership: " ++ errno_text cause)
                                   (syscall_Errno cause))),
           [TokenOpened; TokenClosed]))
    /\ (OpenProcessToken w = Some cause
        \/ CreateWellKnownSid w = Some cause
        \/ snd (IsMember w) = Some cause ->
        (exists err t,
            windows.CheckRoot w progname = (Normal (Some err), t)
            /\ open_tokens 0 t = 0)
        /\ forall argv0,
            exists trace,
              main (Windows w) [argv0] = Some (Exited 1, trace)
              /\ run_calls trace = [] /\ postmaster_calls trace = []).
Proof.
  intros w progname cause.
  assert (Closed : OpenProcessToken w = Some cause
                   \/ CreateWellKnownSid w = Some cause
                   \/ snd (IsMember w) = Some cause ->
                   forall p, exists err t,
                       windows.CheckRoot w p = (Normal (Some err), t)
                       /\ open_tokens 0 t = 0).
  { intros H p. unfold windows.CheckRoot.
    destruct (OpenProcessToken w) as [e1|] eqn:E1;
      [do 2 eexists; split; reflexivity|].
    destruct (CreateWellKnownSid w) as [e2|] eqn:E2;
      [do 2 eexists; split; reflexivity|].
    destruct (IsMember w) as [b [e3|]] eqn:E3;
      [do 2 eexists; split; reflexivity|].
    simpl in H. destruct H as [H|[H|H]]; discriminate H. }
  repeat split.
  - intros E. unfold windows.CheckRoot. rewrite E. reflexivity.
  - intros E1 E2. unfold windows.CheckRoot. rewrite E1, E2. reflexivity.
  - intros E1 E2 E3. unfold windows.CheckRoot. rewrite E1, E2.
    destruct (IsMember w) as [b e]. simpl in E3. subst e. reflexivity.
  - apply Closed; assumption.
  - intros argv0.
    destruct (Closed H (filepath_Base argv0)) as (err & t & HC & _).
    assert (HC' : platform.CheckRoot (Windows w) (filepath_Base argv0)
                  = (Normal (Some err), t)) by exact HC.
    eexists. split.
    + unfold main, cobra.Execute. cbn [forallb].
      rewrite (ExecuteC_rejected (Windows w) _ [] _ [] [] err t
                 eq_refl eq_refl eq_refl eq_refl HC').
      reflexivity.
    + destruct (CheckRoot_events _ _ _ _ HC') as [-> | ->]; split; reflexivity.
Qed.

Lemma C7_windows_fails_closed_witness :
  windows.CheckRoot sample_untestable_token "postgres"
  = (Normal (Some (wrapError "failed to check admin membership: Access is denied."
                             (syscall_Errno sample_access_denied))),
     [TokenOpened; TokenClosed])
  /\ exists trace,
      @main sample_externals (Windows sample_untestable_token) ["postgres"]
      = Some (Exited 1, trace)
      /\ run_calls trace = [] /\ postmaster_calls trace = [].
Proof.
  destruct (@C7_windows_fails_closed sample_externals sample_untestable_token
              "postgres" sample_access_denied)
    as (_ & _ & H3 & H4).
  split.
  - apply H3; reflexivity.
  - apply H4. right. right. reflexivity.
Defined.

(** C8.  With no word after the program name and an identity the verifier
    accepts, the root command is selected: after the verifier its body is
    entered once and calls [PostmasterMain] exactly once, with the empty
    argument list that remains; the body hands its arguments to
    [PostmasterMain] unchanged. *)
Theorem C8_default_mode_runs_postmaster {ext : Externals} :
  forall os argv0 t,
    platform.CheckRoot os (filepath_Base argv0) = (Normal None, t) ->
    (exists outcome after,
        main os [argv0]
        = Some (outcome,
                [Call_CheckRoot (filepath_Base argv0)] ++ t
                ++ [Call_Run "postgres" []; Call_PostmasterMain []] ++ after)%list
        /\ postmaster_calls
             ([Call_CheckRoot (filepath_Base argv0)] ++ t
              ++ [Call_Run "postgres" []; Call_PostmasterMain []] ++ after)%list
           = [[]]
        /\ run_calls
             ([Call_CheckRoot (filepath_Base argv0)] ++ t
              ++ [Call_Run "postgres" []; Call_PostmasterMain []] ++ after)%list
           = ["postgres"])
    /\ (exists body,
           cobra.RunE (rootCmd os (filepath_Base argv0)) = Some body
           /\ forall name args,
               body name args = (PostmasterMain args, [Call_PostmasterMain args])).
Proof.
  intros os argv0 t HC. split.
  - assert (E : cobra.ExecuteC (rootCmd os (filepath_Base argv0)) []
                = bind (bind (Normal tt, [Call_CheckRoot (filepath_Base argv0)] ++ t)%list
                           (fun _ => emit (Call_Run "postgres" []) ;;
                                     emit (Call_PostmasterMain []) ;;
                                     (PostmasterMain [], [])))
                       (fun err =>
                          match err with
                          | None => ret None
                          | Some err =>
                            if errors_Is_ErrHelp err then
                              emit (HelpPrinted "postgres") ;; ret None
                            else
                              emit (Stderr ("Error: " ++ Error err ++ newline)) ;;
                              emit (UsagePrinted "postgres") ;;
                              ret (Some err)
                          end)).
    { rewrite ExecuteC_eq.
      change (cobra.Find (tree_built os (filepath_Base argv0)) [])
        with ([tree_built os (filepath_Base argv0)], @nil string, @None error).
      cbv iota beta.
      rewrite (execute_after_pass os _ [] _ [] [] t eq_refl eq_refl eq_refl eq_refl HC).
      reflexivity. }
    unfold main, cobra.Execute. cbn [forallb]. rewrite E. clear E.
    destruct (CheckRoot_events _ _ _ _ HC) as [-> | ->];
      (destruct (PostmasterMain []) as [[err|] | v | ];
       [destruct (errors_Is_ErrHelp err) eqn:EH | | | ]);
      cbn; rewrite ?EH; cbn;
      do 2 eexists; (split; [reflexivity|split; reflexivity]).
  - eexists. split; [reflexivity|]. intros name args. reflexivity.
Qed.

Lemma C8_default_mode_runs_postmaster_witness :
  exists outcome after,
    @main sample_externals sample_user ["postgres"]
    = Some (outcome,
            [Call_CheckRoot "postgres"; Call_Run "postgres" []; Call_PostmasterMain []]
            ++ after)%list.
Proof.
  destruct (@C8_default_mode_runs_postmaster sample_externals sample_user "postgres" []
              eq_refl) as ((outcome & after & H & _) & _).
  exists outcome, after. exact H.
Defined.



(** C10.  The body of describe-config is a constant action: it has no
    error result, and for every command name and argument list it prints
    the one line "GucInfoMain: Listing all configuration parameters..."
    on stdout and returns. *)
Theorem C10_describe_config_body_is_constant :
  cobra.RunE describeConfigCmd = None
  /\ exists body,
      cobra.Run describeConfigCmd = Some body
      /\ forall (name : string) (args : list string),
          body name args
          = (Normal tt,
             [Stdout ("GucInfoMain: Listing all configuration parameters..." ++ newline)]).
Proof.
  split; [reflexivity|].
  eexists. split; [reflexivity|]. intros name args. reflexivity.
Qed.

(** * Further properties *)

(** ** The verifier, on every identity *)

(** The POSIX verifier returns nil exactly for the identities whose real
    and effective user id agree and are not 0: no other identity passes. *)
Theorem unix_CheckRoot_passes_iff : forall (c : Credentials) (progname : string),
  fst (unix.CheckRoot c progname) = Normal None
  <-> (Getuid c = Geteuid c /\ Geteuid c <> 0%Z).
Proof.
  intros c progname. unfold unix.CheckRoot.
  destruct (Z.eqb_spec (Geteuid c) 0) as [E0|N0].
  - split; [discriminate | intros [_ N]; contradiction].
  - destruct (Z.eqb_spec (Getuid c) (Geteuid c)) as [E|N]; simpl.
    + split; [intros _; split; assumption | reflexivity].
    + split; [discriminate | intros [E _]; contradiction].
Qed.

Lemma unix_CheckRoot_passes_iff_witness :
  fst (unix.CheckRoot (mkCredentials 501 501) "postgres") = Normal None.
Proof.
  apply (proj2 (unix_CheckRoot_passes_iff (mkCredentials 501 501) "postgres")).
  simpl. split; [reflexivity | lia].
Defined.

(** The Windows verifier returns nil exactly when the token could be
    opened, the administrators SID could be built, and the membership
    test succeeded with the answer false. *)
Theorem windows_CheckRoot_passes_iff : forall (w : TokenApi) (progname : string),
  fst (windows.CheckRoot w progname) = Normal None
  <-> (OpenProcessToken w = None /\ CreateWellKnownSid w = None
       /\ IsMember w = (false, None)).
Proof.
  intros w progname. unfold windows.CheckRoot.
  destruct (OpenProcessToken w) as [e1|].
  - split; [discriminate | intros (H & _); discriminate H].
  - destruct (CreateWellKnownSid w) as [e2|].
    + split; [discriminate | intros (_ & H & _); discriminate H].
    + destruct (IsMember w) as [[|] [e3|]]; simpl;
        (split; [try discriminate | intros (_ & _ & H); try discriminate H]).
      * intros _. repeat split.
      * reflexivity.
Qed.

Lemma windows_CheckRoot_passes_iff_witness :
  fst (windows.CheckRoot sample_plain_token "postgres") = Normal None.
Proof.
  apply (proj2 (windows_CheckRoot_passes_iff sample_plain_token "postgres")).
  repeat split.
Defined.

(** The token handle is scoped to the call: when the token cannot be
    opened nothing is closed, and once it is opened it is closed on every
    return path, so no handle is left open. *)
Theorem windows_CheckRoot_token_scoped : forall (w : TokenApi) (progname : string),
  snd (windows.CheckRoot w progname)
  = match OpenProcessToken w with
    | Some _ => []
    | None => [TokenOpened; TokenClosed]
    end
  /\ open_tokens 0 (snd (windows.CheckRoot w progname)) = 0.
Proof.
  intros w progname. unfold windows.CheckRoot.
  destruct (OpenProcessToken w) as [e1|]; [split; reflexivity|].
  destruct (CreateWellKnownSid w) as [e2|]; [split; reflexivity|].
  destruct (IsMember w) as [[|] [e3|]]; split; reflexivity.
Qed.

(** The program name takes no part in the decision: for one identity the
    verifier passes for every name or for none, with the same events; on
    Windows the whole result is the same. *)
Theorem CheckRoot_decision_ignores_progname :
  (forall (os : OS) (p1 p2 : string),
      (fst (platform.CheckRoot os p1) = Normal None
       <-> fst (platform.CheckRoot os p2) = Normal None)
      /\ snd (platform.CheckRoot os p1) = snd (platform.CheckRoot os p2))
  /\ (forall (w : TokenApi) (p1 p2 : string),
         windows.CheckRoot w p1 = windows.CheckRoot w p2).
Proof.
  split; [|reflexivity].
  intros [c|w] p1 p2; simpl.
  - split.
    + rewrite !unix_CheckRoot_passes_iff. tauto.
    + unfold unix.CheckRoot.
      destruct (Geteuid c =? 0)%Z; [|destruct (negb _)]; reflexivity.
  - split; reflexivity.
Qed.

Lemma CheckRoot_decision_ignores_progname_witness :
  fst (platform.CheckRoot sample_user "") = Normal None.
Proof.
  apply (proj1 (proj1 (proj1 CheckRoot_decision_ignores_progname
                         sample_user "postgres" ""))).
  reflexivity.
Defined.

(** ** Every command line *)

Section Summary.
Context {ext : Externals}.
Variable os : OS.
Variable progname : string.

Lemma Find_cases : forall args,
  (args = [] /\ cobra.Find (tree_built os progname) args = ([tree_built os progname], [], None))
  \/ (exists x rest sub,
         args = x :: rest
         /\ In sub [checkCmd; bootCmd; describeConfigCmd; singleCmd; cobra.helpCommand]
         /\ cobra.Find (tree_built os progname) args = ([sub; tree_built os progname], rest, None))
  \/ (exists rest,
         args <> []
         /\ cobra.Find (tree_built os progname) args
            = ([cobra.completionCmd; tree_built os progname], rest, None))
  \/ (exists sh rest,
         args <> []
         /\ In sh ["bash"; "zsh"; "fish"; "powershell"]
         /\ cobra.Find (tree_built os progname) args
            = ([cobra.completionShell sh; cobra.completionCmd; tree_built os progname],
               rest, None))
  \/ (exists err,
         args <> []
         /\ cobra.Find (tree_built os progname) args = ([tree_built os progname], args, Some err)).
Proof.
  intros [|x args]; [left; split; reflexivity|right].
  unfold cobra.Find. cbn [cobra.innerfind]. rewrite findNext_tree.
  destruct ("check" =? x);
    [left; exists x, args, checkCmd; rewrite innerfind_leaf by reflexivity;
     simpl; tauto|].
  destruct ("boot" =? x);
    [left; exists x, args, bootCmd; rewrite innerfind_leaf by reflexivity;
     simpl; tauto|].
  destruct ("describe-config" =? x);
    [left; exists x, args, describeConfigCmd; rewrite innerfind_leaf by reflexivity;
     simpl; tauto|].
  destruct ("single" =? x);
    [left; exists x, args, singleCmd; rewrite innerfind_leaf by reflexivity;
     simpl; tauto|].
  destruct ("help" =? x);
    [left; exists x, args, cobra.helpCommand; rewrite innerfind_leaf by reflexivity;
     simpl; tauto|].
  right. destruct ("completion" =? x).
  - destruct args as [|y args].
    + left. exists []. split; [discriminate|reflexivity].
    + cbn [cobra.innerfind]. rewrite findNext_completion.
      destruct ("bash" =? y);
        [right; left; exists "bash", args; rewrite innerfind_leaf by reflexivity;
         simpl; repeat split; try discriminate; tauto|].
      destruct ("zsh" =? y);
        [right; left; exists "zsh", args; rewrite innerfind_leaf by reflexivity;
         simpl; repeat split; try discriminate; tauto|].
      destruct ("fish" =? y);
        [right; left; exists "fish", args; rewrite innerfind_leaf by reflexivity;
         simpl; repeat split; try discriminate; tauto|].
      destruct ("powershell" =? y);
        [right; left; exists "powershell", args; rewrite innerfind_leaf by reflexivity;
         simpl; repeat split; try discriminate; tauto|].
      left. exists (y :: args). split; [discriminate|reflexivity].
  - right. right. eexists. split; [discriminate|reflexivity].
Qed.

Ltac find_tree HF :=
  rewrite ExecuteC_eq;
  rewrite HF.

Ltac refused HF HC Ht err t :=
  do 2 eexists;
  (split;
   [apply (ExecuteC_rejected os progname _ _ _ _ err t HF); try reflexivity; exact HC|]);
  right; left; exists err, t;
  destruct Ht as [-> | ->]; repeat split; assumption.

Ltac passed HF HC Ht t :=
  find_tree HF;
  rewrite (execute_after_pass os progname _ _ _ _ t HF eq_refl eq_refl eq_refl HC);
  do 2 eexists; (split; [reflexivity|]);
  right; right; exists t;
  (split; [exact HC|]);
  destruct Ht as [-> | ->];
  (split; [reflexivity|]); (split; [reflexivity|]); (split; [reflexivity|]).

Ltac unconsulted :=
  split; [reflexivity|]; split; [reflexivity|];
  split; [simpl; intros n Hn; repeat (destruct Hn as [<-|Hn]; [reflexivity|]); elim Hn|];
  split; [simpl; lia|]; eexists; reflexivity.

(** What a run of [Execute] amounts to, on any words: the verifier was
    not consulted and only an exempt body, if any, was entered; or it was
    consulted once and refused, and nothing was entered; or it was
    consulted once and passed, and one body was entered. *)
Lemma ExecuteC_summary : forall args,
  exists c tr,
    cobra.ExecuteC (rootCmd os progname) args = (c, tr)
    /\ ((checkroot_calls tr = 0 /\ postmaster_calls tr = []
         /\ (forall n, In n (run_calls tr) -> exempt n = true)
         /\ length (run_calls tr) <= 1
         /\ exists r, c = Normal r)
        \/ (exists err t,
               platform.CheckRoot os progname = (Normal (Some err), t)
               /\ c = Normal (Some err)
               /\ hd_error tr = Some (Call_CheckRoot progname)
               /\ checkroot_calls tr = 1 /\ run_calls tr = []
               /\ postmaster_calls tr = [])
        \/ (exists t,
               platform.CheckRoot os progname = (Normal None, t)
               /\ hd_error tr = Some (Call_CheckRoot progname)
               /\ checkroot_calls tr = 1 /\ length (run_calls tr) = 1
               /\ ((postmaster_calls tr = []
                    /\ (c = Normal None
                        \/ exists mode, In mode ["boot"; "check"; "single"]
                                        /\ c = Panicked (not_implemented mode)))
                   \/ (args = [] /\ postmaster_calls tr = [[]]
                       /\ (forall v, c = Panicked v -> PostmasterMain [] = Panicked v)
                       /\ (c = Blocked -> PostmasterMain [] = Blocked))))).
Proof.
  intros args.
  destruct (CheckRoot_returns os progname) as (r & t & HC).
  pose proof (CheckRoot_events _ _ _ _ HC) as Ht.
  destruct (Find_cases args) as
      [(-> & HF) | [(x & rest & sub & -> & Hsub & HF)
                   | [(rest & _ & HF) | [(sh & rest & _ & Hsh & HF) | (err & _ & HF)]]]].
  - (* the root command *)
    destruct r as [err|]; [refused HF HC Ht err t|].
    find_tree HF.
    rewrite (execute_after_pass os progname _ _ _ _ t HF eq_refl eq_refl eq_refl HC).
    destruct Ht as [-> | ->];
      (destruct (PostmasterMain []) as [[e|] | v | ] eqn:EP;
       [destruct (errors_Is_ErrHelp e) eqn:EH | | | ]);
      cbn; rewrite EP; cbn; rewrite ?EH; cbn;
      (do 2 eexists; split; [reflexivity|]);
      right; right; eexists; (split; [exact HC|]);
      (split; [reflexivity|]); (split; [reflexivity|]); (split; [reflexivity|]);
      right; repeat split; intros; congruence.
  - (* a command registered by main, or help *)
    simpl in Hsub.
    destruct Hsub as [<- | [<- | [<- | [<- | [<- | []]]]]].
    + destruct r as [err|]; [refused HF HC Ht err t|].
      passed HF HC Ht t; left; (split; [reflexivity|]); right; exists "check"; simpl; tauto.
    + destruct r as [err|]; [refused HF HC Ht err t|].
      passed HF HC Ht t; left; (split; [reflexivity|]); right; exists "boot"; simpl; tauto.
    + find_tree HF. do 2 eexists. split; [reflexivity|]. left. unconsulted.
    + destruct r as [err|]; [refused HF HC Ht err t|].
      passed HF HC Ht t; left; (split; [reflexivity|]); right; exists "single"; simpl; tauto.
    + find_tree HF. do 2 eexists. split; [reflexivity|]. left. unconsulted.
  - (* completion alone: not runnable *)
    find_tree HF. do 2 eexists. split; [reflexivity|]. left. unconsulted.
  - (* a completion script *)
    simpl in Hsh. destruct Hsh as [<- | [<- | [<- | [<- | []]]]];
      (destruct rest as [|w rest];
       [ destruct r as [err|]; [refused HF HC Ht err t|];
         passed HF HC Ht t; left; (split; [reflexivity|]); left; reflexivity
       | find_tree HF; do 2 eexists; (split; [reflexivity|]); left; unconsulted ]).
  - (* an unknown command *)
    find_tree HF. do 2 eexists. split; [reflexivity|]. left. unconsulted.
Qed.

End Summary.

Lemma main_inv {ext : Externals} : forall os argv0 args outcome trace,
  main os (argv0 :: args) = Some (outcome, trace) ->
  exists c,
    cobra.ExecuteC (rootCmd os (filepath_Base argv0)) args = (c, trace)
    /\ outcome = match c with
                 | Normal (Some _) => Exited 1
                 | Normal None => Exited 0
                 | Panicked v => Crashed v
                 | Blocked => Supervising
                 end.
Proof.
  intros os argv0 args outcome trace. unfold main, cobra.Execute.
  destruct (forallb cobra.plain_word args); [|discriminate].
  destruct (cobra.ExecuteC (rootCmd os (filepath_Base argv0)) args) as [c tr].
  exists c. destruct c as [[e|] | v | ]; inversion H; subst; split; reflexivity.
Qed.

(** On every command line the verifier is consulted at most once and at
    most one command body is entered. *)
Theorem one_check_one_body {ext : Externals} : forall os argv0 args outcome trace,
  main os (argv0 :: args) = Some (outcome, trace) ->
  checkroot_calls trace <= 1 /\ length (run_calls trace) <= 1.
Proof.
  intros os argv0 args outcome trace H.
  destruct (main_inv _ _ _ _ _ H) as (c & E & _).
  destruct (ExecuteC_summary os (filepath_Base argv0) args) as (c' & tr' & E' & S).
  rewrite E in E'. inversion E'; subst c' tr'. clear E'.
  destruct S as [(C & _ & _ & R & _) | [(err & t & _ & _ & _ & C & R & _)
                                       | (t & _ & _ & C & R & _)]].
  - rewrite C. split; [lia | exact R].
  - rewrite C, R. simpl. split; lia.
  - rewrite C, R. split; lia.
Qed.

Lemma one_check_one_body_witness :
  checkroot_calls [Call_CheckRoot "postgres"; Call_Run "postgres" [];
                   Call_PostmasterMain []] <= 1
  /\ length (run_calls [Call_CheckRoot "postgres"; Call_Run "postgres" [];
                        Call_PostmasterMain []]) <= 1.
Proof.
  apply (@one_check_one_body sample_externals sample_user "postgres" [] Supervising).
  reflexivity.
Defined.

(** [PostmasterMain] is reached only by the bare command line, only once,
    and only after the verifier was entered first and returned nil. *)
Theorem postmaster_only_after_pass {ext : Externals} :
  forall os argv0 args outcome trace,
    main os (argv0 :: args) = Some (outcome, trace) ->
    postmaster_calls trace <> [] ->
    args = []
    /\ postmaster_calls trace = [[]]
    /\ hd_error trace = Some (Call_CheckRoot (filepath_Base argv0))
    /\ fst (platform.CheckRoot os (filepath_Base argv0)) = Normal None.
Proof.
  intros os argv0 args outcome trace H NE.
  destruct (main_inv _ _ _ _ _ H) as (c & E & _).
  destruct (ExecuteC_summary os (filepath_Base argv0) args) as (c' & tr' & E' & S).
  rewrite E in E'. inversion E'; subst c' tr'. clear E'.
  destruct S as [(_ & P & _) | [(err & t & _ & _ & _ & _ & _ & P)
                                | (t & HC & Hd & _ & _ & [(P & _) | (A & P & _)])]];
    try contradiction.
  rewrite HC. repeat split; assumption.
Qed.

Lemma postmaster_only_after_pass_witness :
  fst (platform.CheckRoot sample_user "postgres") = Normal None.
Proof.
  apply (@postmaster_only_after_pass sample_externals sample_user "postgres" []
           Supervising
           [Call_CheckRoot "postgres"; Call_Run "postgres" []; Call_PostmasterMain []]).
  - reflexivity.
  - discriminate.
Defined.

(** A command body that the hook does not exempt is entered only after
    the verifier was entered first and returned nil. *)
Theorem body_only_after_pass {ext : Externals} :
  forall os argv0 args outcome trace name,
    main os (argv0 :: args) = Some (outcome, trace) ->
    In name (run_calls trace) ->
    exempt name = false ->
    hd_error trace = Some (Call_CheckRoot (filepath_Base argv0))
    /\ fst (platform.CheckRoot os (filepath_Base argv0)) = Normal None.
Proof.
  intros os argv0 args outcome trace name H Hin Hex.
  destruct (main_inv _ _ _ _ _ H) as (c & E & _).
  destruct (ExecuteC_summary os (filepath_Base argv0) args) as (c' & tr' & E' & S).
  rewrite E in E'. inversion E'; subst c' tr'. clear E'.
  destruct S as [(_ & _ & X & _) | [(err & t & _ & _ & _ & _ & R & _)
                                   | (t & HC & Hd & _)]].
  - rewrite (X name Hin) in Hex. discriminate Hex.
  - rewrite R in Hin. elim Hin.
  - rewrite HC. split; [exact Hd | reflexivity].
Qed.

Lemma body_only_after_pass_witness :
  hd_error [Call_CheckRoot "postgres"; Call_Run "boot" []]
  = Some (Call_CheckRoot "postgres")
  /\ fst (platform.CheckRoot sample_user "postgres") = Normal None.
Proof.
  apply (@body_only_after_pass sample_externals sample_user "postgres" ["boot"]
           (Crashed "DISPATCH_BOOT: Not implemented yet")
           [Call_CheckRoot "postgres"; Call_Run "boot" []] "boot").
  - reflexivity.
  - simpl. tauto.
  - reflexivity.
Defined.

(** Under an identity the verifier refuses, whatever the command line,
    the process leaves with status 0 or 1: it never crashes and never
    becomes the supervisor, [PostmasterMain] is not called, only exempt
    bodies are entered, and status 0 means the verifier was not
    consulted. *)
Theorem refused_identity_reaches_nothing {ext : Externals} :
  forall os argv0 args err outcome trace,
    fst (platform.CheckRoot os (filepath_Base argv0)) = Normal (Some err) ->
    main os (argv0 :: args) = Some (outcome, trace) ->
    (outcome = Exited 0 \/ outcome = Exited 1)
    /\ postmaster_calls trace = []
    /\ (forall name, In name (run_calls trace) -> exempt name = true)
    /\ (outcome = Exited 0 -> checkroot_calls trace = 0).
Proof.
  intros os argv0 args err outcome trace HR H.
  destruct (main_inv _ _ _ _ _ H) as (c & E & ->).
  destruct (ExecuteC_summary os (filepath_Base argv0) args) as (c' & tr' & E' & S).
  rewrite E in E'. inversion E'; subst c' tr'. clear E'.
  destruct S as [(C & P & X & _ & (r & ->)) | [(e & t & _ & -> & _ & _ & R & P)
                                               | (t & HC & _)]].
  - repeat split; try assumption.
    + destruct r; [right|left]; reflexivity.
    + intros _. exact C.
  - repeat split; try assumption.
    + right; reflexivity.
    + rewrite R. intros name [].
    + discriminate.
  - rewrite HC in HR. discriminate HR.
Qed.

Lemma refused_identity_reaches_nothing_witness :
  (Exited 1 = Exited 0 \/ Exited 1 = Exited 1)
  /\ postmaster_calls [Call_CheckRoot "postgres";
                       Stderr ("Error: " ++ unix.root_message ++ newline);
                       UsagePrinted "postgres"] = []
  /\ (forall name,
         In name (run_calls [Call_CheckRoot "postgres";
                             Stderr ("Error: " ++ unix.root_message ++ newline);
                             UsagePrinted "postgres"]) ->
         exempt name = true)
  /\ (Exited 1 = Exited 0 ->
      checkroot_calls [Call_CheckRoot "postgres";
                       Stderr ("Error: " ++ unix.root_message ++ newline);
                       UsagePrinted "postgres"] = 0).
Proof.
  apply (@refused_identity_reaches_nothing sample_externals sample_root "postgres" []
           (errors_New unix.root_message)); reflexivity.
Defined.

(** Where a crash or a supervisor comes from: the process crashes only
    with the panic of a reserved mode or with a panic of
    [PostmasterMain], and keeps running only when [PostmasterMain] does
    not return; in each case the verifier had returned nil. *)
Theorem crash_and_supervision_provenance {ext : Externals} :
  forall os argv0 args outcome trace,
    main os (argv0 :: args) = Some (outcome, trace) ->
    (forall v, outcome = Crashed v ->
       fst (platform.CheckRoot os (filepath_Base argv0)) = Normal None
       /\ ((exists mode, In mode ["boot"; "check"; "single"] /\ v = not_implemented mode)
           \/ (args = [] /\ PostmasterMain [] = Panicked v)))
    /\ (outcome = Supervising ->
        fst (platform.CheckRoot os (filepath_Base argv0)) = Normal None
        /\ args = [] /\ PostmasterMain [] = Blocked).
Proof.
  intros os argv0 args outcome trace H.
  destruct (main_inv _ _ _ _ _ H) as (c & E & ->).
  destruct (ExecuteC_summary os (filepath_Base argv0) args) as (c' & tr' & E' & S).
  rewrite E in E'. inversion E'; subst c' tr'. clear E'.
  destruct S as [(_ & _ & _ & _ & (r & ->)) | [(e & t & _ & -> & _)
                                               | (t & HC & _ & _ & _ & B)]].
  - split; [intros v Hv | intros Hv]; destruct r; discriminate Hv.
  - split; [intros v Hv | intros Hv]; discriminate Hv.
  - rewrite HC.
    destruct B as [(_ & [-> | (mode & Hm & ->)]) | (-> & _ & PV & PB)].
    + split; [intros v Hv | intros Hv]; discriminate Hv.
    + split; [intros v Hv | intros Hv]; [|discriminate Hv].
      inversion Hv; subst v. split; [reflexivity|]. left. exists mode. tauto.
    + split.
      * intros v Hv. split; [reflexivity|]. right. split; [reflexivity|].
        apply PV. destruct c as [[?|] | v' | ]; try discriminate Hv.
        inversion Hv; reflexivity.
      * intros Hv. repeat split. apply PB.
        destruct c as [[?|] | v' | ]; try discriminate Hv. reflexivity.
Qed.

Lemma crash_and_supervision_provenance_witness :
  fst (platform.CheckRoot sample_user "postgres") = Normal None
  /\ ((exists mode, In mode ["boot"; "check"; "single"]
                    /\ "DISPATCH_CHECK: Not implemented yet" = not_implemented mode)
      \/ (["check"] = [] /\ @PostmasterMain sample_externals []
                            = Panicked "DISPATCH_CHECK: Not implemented yet")).
Proof.
  apply (proj1 (@crash_and_supervision_provenance sample_externals sample_user "postgres"
                  ["check"] (Crashed "DISPATCH_CHECK: Not implemented yet")
                  [Call_CheckRoot "postgres"; Call_Run "check" []] eq_refl)).
  reflexivity.
Defined.

(** What [PostmasterMain] returns decides how the default mode ends: nil
    gives status 0; an error (other than the help sentinel) is printed
    with the usage text and gives status 1; a panic crashes the process;
    and while it does not return the process is the supervisor. *)
Theorem postmaster_result_propagates {ext : Externals} :
  forall os argv0 t,
    platform.CheckRoot os (filepath_Base argv0) = (Normal None, t) ->
    let entered := ([Call_CheckRoot (filepath_Base argv0)] ++ t
                    ++ [Call_Run "postgres" []; Call_PostmasterMain []])%list in
    (PostmasterMain [] = Normal None ->
     main os [argv0] = Some (Exited 0, entered))
    /\ (forall err, PostmasterMain [] = Normal (Some err) ->
                    errors_Is_ErrHelp err = false ->
                    main os [argv0]
                    = Some (Exited 1,
                            entered ++ [Stderr ("Error: " ++ Error err ++ newline);
                                        UsagePrinted "postgres"])%list)
    /\ (forall v, PostmasterMain [] = Panicked v ->
                  main os [argv0] = Some (Crashed v, entered))
    /\ (PostmasterMain [] = Blocked ->
        main os [argv0] = Some (Supervising, entered)).
Proof.
  intros os argv0 t HC entered. subst entered.
  unfold main, cobra.Execute. cbn [forallb].
  rewrite ExecuteC_eq.
  change (cobra.Find (tree_built os (filepath_Base argv0)) [])
    with ([tree_built os (filepath_Base argv0)], @nil string, @None error).
  cbv iota beta.
  rewrite (execute_after_pass os _ [] _ [] [] t eq_refl eq_refl eq_refl eq_refl HC).
  destruct (CheckRoot_events _ _ _ _ HC) as [-> | ->];
    (split; [|split; [|split]]);
    try (intros EP; cbn; rewrite EP; reflexivity);
    try (intros v EP; cbn; rewrite EP; reflexivity);
    (intros err EP EH; cbn; rewrite EP; cbn; rewrite EH; reflexivity).
Qed.

Lemma postmaster_result_propagates_witness :
  @main sample_failing_externals sample_user ["postgres"]
  = Some (Exited 1,
          [Call_CheckRoot "postgres"; Call_Run "postgres" []; Call_PostmasterMain [];
           Stderr ("Error: postmaster: not started" ++ newline);
           UsagePrinted "postgres"])
  /\ @main sample_externals sample_user ["postgres"]
     = Some (Supervising,
             [Call_CheckRoot "postgres"; Call_Run "postgres" []; Call_PostmasterMain []]).
Proof.
  split.
  - apply (proj1 (proj2 (@postmaster_result_propagates sample_failing_externals
                           sample_user "postgres" [] eq_refl))
                 (errors_New "postmaster: not started")); reflexivity.
  - apply (proj2 (proj2 (proj2 (@postmaster_result_propagates sample_externals
                                  sample_user "postgres" [] eq_refl)))).
    reflexivity.
Defined.

(** The help command runs under every identity: the verifier is not
    entered, the help body is, and the process leaves with status 0. *)
Theorem help_is_exempt {ext : Externals} : forall os argv0 rest,
  forallb cobra.plain_word rest = true ->
  exists trace,
    main os (argv0 :: "help" :: rest) = Some (Exited 0, trace)
    /\ run_calls trace = ["help"]
    /\ checkroot_calls trace = 0
    /\ postmaster_calls trace = [].
Proof.
  intros os argv0 rest HP. eexists. split.
  - unfold main, cobra.Execute. cbn [forallb]. rewrite HP.
    change (cobra.plain_word "help") with true. cbn [andb].
    rewrite ExecuteC_eq.
    rewrite (Find_leaf os _ "help" cobra.helpCommand rest) by reflexivity.
    reflexivity.
  - repeat split.
Qed.

Lemma help_is_exempt_witness :
  exists trace,
    @main sample_externals sample_root ["postgres"; "help"; "boot"] = Some (Exited 0, trace)
    /\ run_calls trace = ["help"]
    /\ checkroot_calls trace = 0
    /\ postmaster_calls trace = [].
Proof.
  apply (@help_is_exempt sample_externals sample_root "postgres" ["boot"]).
  reflexivity.
Defined.
